(** * OCSP certificate identifiers and response envelope

    A shallow embedding of [Sources/PackageCollectionsSigningLibc/ocsp_lib.c]
    and of the constants of [include/CCollectionSigning_ocsp.h], with the
    properties the natural-language specification states about them.

    The C functions call into libcrypto (digests, object registry, X.509
    accessors, ASN.1 string primitives).  Those collaborators are gathered in
    the class [Libcrypto]; everything proved below holds for every instance.
    A small concrete instance, [Toy.crypto], is used to run the functions. *)

From Stdlib Require Import ZArith List Bool Lia.
From Stdlib Require Import NArith Strings.Byte.
Import ListNotations.

Local Open Scope Z_scope.

(** ** ASN.1 values, as the C structs have them *)

(** [struct asn1_string_st { int length; int type; unsigned char *data;
    long flags; }].  The octets a string denotes are the first [length]
    bytes of [data]; ASN1_BIT_STRING, ASN1_OCTET_STRING and ASN1_INTEGER are
    all this struct. *)
Record ASN1_STRING : Type := mkString {
  str_length : Z;
  str_type : Z;
  str_data : list byte;
  str_flags : Z
}.

Definition ASN1_BIT_STRING := ASN1_STRING.
Definition ASN1_OCTET_STRING := ASN1_STRING.
Definition ASN1_INTEGER := ASN1_STRING.

(** The content octets of a string: [data[0 .. length)]. *)
Definition str_octets (s : ASN1_STRING) : list byte :=
  firstn (Z.to_nat (str_length s)) (str_data s).

(** [struct asn1_object_st]: the numeric identifier and the encoded OID. *)
Record ASN1_OBJECT : Type := mkObject {
  obj_nid : Z;
  obj_data : list byte
}.

(** [struct asn1_type_st { int type; union { ... } value; }]. *)
Record ASN1_TYPE : Type := mkType {
  at_type : Z;
  at_value : option ASN1_STRING
}.

(** [struct X509_algor_st { ASN1_OBJECT *algorithm; ASN1_TYPE *parameter; }];
    a null pointer is [None]. *)
Record X509_ALGOR : Type := mkAlgor {
  algorithm : option ASN1_OBJECT;
  parameter : option ASN1_TYPE
}.

(** Modelled from the spec: [struct ocsp_cert_id_st] is declared in
    CCollectionSigning_ocsp_local.h, which is not among the sources.  The
    four fields are those of the spec's CertID (section 3) and those
    [OCSP_cert_id_new] assigns through [cid->hashAlgorithm],
    [cid->issuerNameHash], [cid->issuerKeyHash] and [cid->serialNumber]. *)
Record OCSP_CERTID : Type := mkCertID {
  hashAlgorithm : X509_ALGOR;
  issuerNameHash : ASN1_OCTET_STRING;
  issuerKeyHash : ASN1_OCTET_STRING;
  serialNumber : ASN1_INTEGER
}.

(** Field assignments [p->f = v]. *)
Definition set_algorithm (a : X509_ALGOR) (o : option ASN1_OBJECT) : X509_ALGOR :=
  {| algorithm := o; parameter := parameter a |}.
Definition set_parameter (a : X509_ALGOR) (p : option ASN1_TYPE) : X509_ALGOR :=
  {| algorithm := algorithm a; parameter := p |}.
Definition set_at_type (t : ASN1_TYPE) (ty : Z) : ASN1_TYPE :=
  {| at_type := ty; at_value := at_value t |}.
Definition set_hashAlgorithm (c : OCSP_CERTID) (a : X509_ALGOR) : OCSP_CERTID :=
  {| hashAlgorithm := a; issuerNameHash := issuerNameHash c;
     issuerKeyHash := issuerKeyHash c; serialNumber := serialNumber c |}.
Definition set_issuerNameHash (c : OCSP_CERTID) (s : ASN1_STRING) : OCSP_CERTID :=
  {| hashAlgorithm := hashAlgorithm c; issuerNameHash := s;
     issuerKeyHash := issuerKeyHash c; serialNumber := serialNumber c |}.
Definition set_issuerKeyHash (c : OCSP_CERTID) (s : ASN1_STRING) : OCSP_CERTID :=
  {| hashAlgorithm := hashAlgorithm c; issuerNameHash := issuerNameHash c;
     issuerKeyHash := s; serialNumber := serialNumber c |}.
Definition set_serialNumber (c : OCSP_CERTID) (s : ASN1_STRING) : OCSP_CERTID :=
  {| hashAlgorithm := hashAlgorithm c; issuerNameHash := issuerNameHash c;
     issuerKeyHash := issuerKeyHash c; serialNumber := s |}.

(** ** Allocation and failure

    Every libcrypto call of [OCSP_cert_id_new] may fail, several of them only
    because memory runs out.  A computation therefore runs against the
    outcomes of the allocations still to come ([true]: the allocation
    succeeds; past the end of the list every allocation succeeds) and yields
    either a value or nothing (the C function's [goto err], which frees what
    was built and returns NULL). *)
Definition Alloc (A : Type) : Type := list bool -> option A * list bool.

Definition ret {A : Type} (a : A) : Alloc A := fun m => (Some a, m).

Definition bind {A B : Type} (c : Alloc A) (k : A -> Alloc B) : Alloc B :=
  fun m => match c m with
           | (Some a, m') => k a m'
           | (None, m') => (None, m')
           end.

(** [goto err]. *)
Definition goto_err {A : Type} : Alloc A := fun m => (None, m).

(** A call whose result is tested against NULL (or 0) and that allocates
    nothing. *)
Definition ensure {A : Type} (o : option A) : Alloc A := fun m => (o, m).

Definition OPENSSL_malloc : Alloc unit :=
  fun m => match m with
           | [] => (Some tt, [])
           | b :: m' => (if b then Some tt else None, m')
           end.

(** What the caller sees: the pointer returned, NULL being [None]. *)
Definition returned {A : Type} (c : Alloc A) (m : list bool) : option A := fst (c m).

Declare Scope alloc_scope.
Delimit Scope alloc_scope with alloc.
Notation "x <- c ;; k" := (bind c (fun x => k))
  (at level 100, c at next level, right associativity) : alloc_scope.
Notation "' p <- c ;; k" := (bind c (fun x => match x with p => k end))
  (at level 100, p pattern, c at next level, right associativity) : alloc_scope.

(** ** The libcrypto interface *)

Class Libcrypto : Type := {
  (** digest descriptors, distinguished names and certificates are opaque *)
  EVP_MD : Type;
  X509_NAME : Type;
  X509 : Type;
  (** constants of the libcrypto headers *)
  NID_undef : Z;
  V_ASN1_NULL : Z;
  (** digests *)
  EVP_sha1 : EVP_MD;
  EVP_MD_type : EVP_MD -> Z;
  EVP_MD_size : EVP_MD -> nat;
  (** the hash function itself: [None] when the computation fails *)
  md_compute : EVP_MD -> list byte -> option (list byte);
  (** the object registry *)
  OBJ_nid2obj : Z -> option ASN1_OBJECT;
  (** the DER encoding of a name: [None] when it cannot be encoded *)
  i2d_X509_NAME : X509_NAME -> option (list byte);
  (** certificate accessors; each returns the address of a field of the
      certificate, which is never null *)
  X509_get_issuer_name : X509 -> X509_NAME;
  X509_get_subject_name : X509 -> X509_NAME;
  X509_get0_serialNumber : X509 -> ASN1_INTEGER;
  X509_get0_pubkey_bitstr : X509 -> ASN1_BIT_STRING;
  (** the objects the ASN.1 allocators hand out *)
  OCSP_CERTID_blank : OCSP_CERTID;
  ASN1_TYPE_blank : ASN1_TYPE;
  (** the indeterminate initial contents of a local [md[EVP_MAX_MD_SIZE]] *)
  md_indeterminate : list byte
}.

(** The digest provider's contract (spec section 6: [compute] returns
    fixed-length bytes): every digest of [d] has [EVP_MD_size d] bytes. *)
Definition fixed_length_digests (L : Libcrypto) : Prop :=
  forall (d : EVP_MD) (input h : list byte),
    md_compute d input = Some h -> length h = EVP_MD_size d.

Section CertID.

Context {L : Libcrypto}.

Local Open Scope alloc_scope.

(** [OCSP_CERTID_new()] and [ASN1_TYPE_new()]: one allocation each. *)
Definition OCSP_CERTID_new : Alloc OCSP_CERTID :=
  _ <- OPENSSL_malloc ;; ret OCSP_CERTID_blank.

Definition ASN1_TYPE_new : Alloc ASN1_TYPE :=
  _ <- OPENSSL_malloc ;; ret ASN1_TYPE_blank.

(** [ASN1_STRING_set(str, data, len)]: [str] receives a private copy of the
    first [len] bytes of [data]; 0 when the copy cannot be allocated. *)
Definition ASN1_STRING_set (str : ASN1_STRING) (data : list byte) (len : Z)
  : Alloc ASN1_STRING :=
  _ <- OPENSSL_malloc ;;
  ret {| str_length := len; str_type := str_type str;
         str_data := firstn (Z.to_nat len) data; str_flags := str_flags str |}.

Definition ASN1_OCTET_STRING_set := ASN1_STRING_set.

(** [ASN1_STRING_copy(dst, str)]: the octets through [ASN1_STRING_set], then
    the type and the flags. *)
Definition ASN1_STRING_copy (dst str : ASN1_STRING) : Alloc ASN1_STRING :=
  s <- ASN1_STRING_set dst (str_data str) (str_length str) ;;
  ret {| str_length := str_length s; str_type := str_type str;
         str_data := str_data s; str_flags := str_flags str |}.

(** [EVP_Digest(data, count, md, &size, type, NULL)]: hashes [count] bytes
    of [data]; on success the digest overwrites the front of the buffer [md]
    and its length is stored in [size].  The result is the buffer and
    [size], or [None] for the return value 0. *)
Definition EVP_Digest (data : list byte) (count : Z) (md : list byte) (type : EVP_MD)
  : option (list byte * Z) :=
  match md_compute type (firstn (Z.to_nat count) data) with
  | Some h => Some (h ++ skipn (length h) md, Z.of_nat (length h))
  | None => None
  end.

(** [X509_NAME_digest(name, type, md, &len)]: the digest of the DER encoding
    of the name. *)
Definition X509_NAME_digest (name : X509_NAME) (type : EVP_MD) (md : list byte)
  : option (list byte * Z) :=
  match i2d_X509_NAME name with
  | Some der => EVP_Digest der (Z.of_nat (length der)) md type
  | None => None
  end.

(** [OCSP_cert_id_new], ocsp_lib.c lines 38-83.  [dgst], [issuerName] and
    [issuerKey] are dereferenced unconditionally, so they are not null;
    [serialNumber] is tested and may be. *)
Definition OCSP_cert_id_new (dgst : EVP_MD) (issuerName : X509_NAME)
    (issuerKey : ASN1_BIT_STRING) (serialNumber_ : option ASN1_INTEGER)
  : Alloc OCSP_CERTID :=
  let md := md_indeterminate in
  cid <- OCSP_CERTID_new ;;
  let alg := hashAlgorithm cid in
  (* ASN1_OBJECT_free(alg->algorithm) *)
  let nid := EVP_MD_type dgst in
  if nid =? NID_undef then goto_err else
  obj <- ensure (OBJ_nid2obj nid) ;;
  let alg := set_algorithm alg (Some obj) in
  par <- ASN1_TYPE_new ;;
  let alg := set_parameter alg (Some (set_at_type par V_ASN1_NULL)) in
  let cid := set_hashAlgorithm cid alg in
  '(md, i) <- ensure (X509_NAME_digest issuerName dgst md) ;;
  s <- ASN1_OCTET_STRING_set (issuerNameHash cid) md i ;;
  let cid := set_issuerNameHash cid s in
  '(md, i) <- ensure (EVP_Digest (str_data issuerKey) (str_length issuerKey) md dgst) ;;
  s <- ASN1_OCTET_STRING_set (issuerKeyHash cid) md i ;;
  let cid := set_issuerKeyHash cid s in
  match serialNumber_ with
  | Some sn =>
      s <- ASN1_STRING_copy (serialNumber cid) sn ;;
      ret (set_serialNumber cid s)
  | None => ret cid
  end.

(** [OCSP_cert_to_id], ocsp_lib.c lines 19-36.  [dgst] and [subject] are
    tested against NULL; [issuer] is dereferenced. *)
Definition OCSP_cert_to_id (dgst : option EVP_MD) (subject : option X509) (issuer : X509)
  : Alloc OCSP_CERTID :=
  let dgst := match dgst with Some d => d | None => EVP_sha1 end in
  let '(iname, serial) :=
    match subject with
    | Some subject => (X509_get_issuer_name subject, Some (X509_get0_serialNumber subject))
    | None => (X509_get_subject_name issuer, None)
    end in
  let ikey := X509_get0_pubkey_bitstr issuer in
  OCSP_cert_id_new dgst iname ikey serial.

End CertID.

(** ** Response status codes (CCollectionSigning_ocsp.h, lines 21 and 37-42) *)

Definition NID_id_pkix_OCSP_basic : Z := 365.

Definition OCSP_RESPONSE_STATUS_SUCCESSFUL : Z := 0.
Definition OCSP_RESPONSE_STATUS_MALFORMEDREQUEST : Z := 1.
Definition OCSP_RESPONSE_STATUS_INTERNALERROR : Z := 2.
Definition OCSP_RESPONSE_STATUS_TRYLATER : Z := 3.
Definition OCSP_RESPONSE_STATUS_SIGREQUIRED : Z := 5.
Definition OCSP_RESPONSE_STATUS_UNAUTHORIZED : Z := 6.

(** The enumeration the six macros stand for. *)
Inductive ResponseStatus : Type :=
  | Successful
  | MalformedRequest
  | InternalError
  | TryLater
  | SigRequired
  | Unauthorized.

Definition status_code (s : ResponseStatus) : Z :=
  match s with
  | Successful => OCSP_RESPONSE_STATUS_SUCCESSFUL
  | MalformedRequest => OCSP_RESPONSE_STATUS_MALFORMEDREQUEST
  | InternalError => OCSP_RESPONSE_STATUS_INTERNALERROR
  | TryLater => OCSP_RESPONSE_STATUS_TRYLATER
  | SigRequired => OCSP_RESPONSE_STATUS_SIGREQUIRED
  | Unauthorized => OCSP_RESPONSE_STATUS_UNAUTHORIZED
  end.

(** ** Reading a response from a byte stream *)

(** The errors of the envelope codec (spec section 7). *)
Inductive decode_error : Type :=
  | MalformedEncoding
  | UnsupportedResponseType
  | UnsupportedStatus
  | TrailingDataError.

Definition byte_value (b : byte) : Z := Z.of_N (Byte.to_N b).

(** Big-endian value of the octets [bs], continuing from [acc]. *)
Fixpoint be_value (acc : Z) (bs : list byte) : Z :=
  match bs with
  | [] => acc
  | b :: bs' => be_value (acc * 256 + byte_value b) bs'
  end.

(** The DER length octets at the front of [bs]: the declared length and the
    bytes after the length octets.  Short form below 128; long form
    [0x80 + n] followed by [n] octets; [0x80] alone (indefinite length) is
    not DER. *)
Definition der_length (bs : list byte) : option (Z * list byte) :=
  match bs with
  | [] => None
  | b :: rest =>
      let v := byte_value b in
      if v <? 128 then Some (v, rest)
      else
        let n := Z.to_nat (v - 128) in
        if (n =? 0)%nat then None
        else if (length rest <? n)%nat then None
        else Some (be_value 0 (firstn n rest), skipn n rest)
  end.

(** The top-level structure at the front of [buf] (identifier octet, length
    octets and as many content octets as the length declares) and the bytes
    that follow it.  Nothing is returned when the header is incomplete or
    the declared length exceeds the input that remains. *)
Definition der_split (buf : list byte) : option (list byte * list byte) :=
  match buf with
  | [] => None
  | _ :: after_tag =>
      match der_length after_tag with
      | None => None
      | Some (len, body) =>
          if Z.of_nat (length body) <? len then None
          else
            let total := (length buf - length body + Z.to_nat len)%nat in
            Some (firstn total buf, skipn total buf)
      end
  end.

Section Envelope.

(** The decoded response and the decoder of one complete structure,
    [d2i_OCSP_RESPONSE], which DECLARE_ASN1_FUNCTIONS(OCSP_RESPONSE)
    declares and the ASN.1 engine provides. *)
Variable OCSP_RESPONSE : Type.
Variable d2i_OCSP_RESPONSE : list byte -> OCSP_RESPONSE + decode_error.

(** Modelled from the spec: [ASN1_d2i_bio_of] and the [ASN1_d2i_bio] it
    expands to live in CCollectionSigning_asn1.h and the ASN.1 sources, which
    are not among the sources.  Following section 4.2 of the spec
    ([decode_response]): a truncated or structurally invalid input is a
    [MalformedEncoding]; bytes beyond the declared top-level structure are a
    [TrailingDataError]; otherwise the structure is handed to the decoder. *)
Definition ASN1_d2i_bio (d2i : list byte -> OCSP_RESPONSE + decode_error)
    (in_ : list byte) : OCSP_RESPONSE + decode_error :=
  match der_split in_ with
  | None => inr MalformedEncoding
  | Some (structure, trailing) =>
      match trailing with
      | [] => d2i structure
      | _ :: _ => inr TrailingDataError
      end
  end.

(** [d2i_OCSP_RESPONSE_bio], ocsp_lib.c lines 90-93.  The BIO is the list of
    bytes not yet read; the allocator argument [OCSP_RESPONSE_new] and the
    out-parameter [res] are left out of the model, which describes the value
    returned. *)
Definition d2i_OCSP_RESPONSE_bio (in_ : list byte) : OCSP_RESPONSE + decode_error :=
  ASN1_d2i_bio d2i_OCSP_RESPONSE in_.

End Envelope.

(** ** The same call, as the interface description puts it

    [OCSP_cert_to_id] described as field extraction followed by one call of
    [OCSP_cert_id_new]; compared with the function itself further down. *)
Section Delegation.

Context {L : Libcrypto}.

Definition digest_or_sha1 (dgst : option EVP_MD) : EVP_MD :=
  match dgst with
  | Some d => d
  | None => EVP_sha1
  end.

Definition selected_name (subject : option X509) (issuer : X509) : X509_NAME :=
  match subject with
  | Some s => X509_get_issuer_name s
  | None => X509_get_subject_name issuer
  end.

Definition selected_serial (subject : option X509) : option ASN1_INTEGER :=
  match subject with
  | Some s => Some (X509_get0_serialNumber s)
  | None => None
  end.

Definition cert_to_id_by_delegation (dgst : option EVP_MD) (subject : option X509)
    (issuer : X509) : Alloc OCSP_CERTID :=
  OCSP_cert_id_new (digest_or_sha1 dgst) (selected_name subject issuer)
    (X509_get0_pubkey_bitstr issuer) (selected_serial subject).

End Delegation.

(** ** The outcome of a successful construction *)

(** The next [k] allocations all succeed. *)
Definition allocations_succeed (k : nat) (m : list bool) : bool :=
  forallb (fun b => b) (firstn k m).

(** The allocations of one run of [OCSP_cert_id_new]: the identifier, the
    algorithm parameter, the two hashes and, when a serial number is given,
    its copy. *)
Definition allocations_needed (sn : option ASN1_INTEGER) : nat :=
  match sn with
  | Some _ => 5
  | None => 4
  end.

Section Outcome.

Context {L : Libcrypto}.

(** What a successful [ASN1_STRING_set] of the whole of [h] leaves in a
    string that was [old]. *)
Definition holding (old : ASN1_STRING) (h : list byte) : ASN1_STRING :=
  {| str_length := Z.of_nat (length h); str_type := str_type old;
     str_data := h; str_flags := str_flags old |}.

(** What a successful [ASN1_STRING_copy] of [src] produces. *)
Definition copy_of (src : ASN1_STRING) : ASN1_STRING :=
  {| str_length := str_length src; str_type := str_type src;
     str_data := str_octets src; str_flags := str_flags src |}.

(** The serial number of the finished identifier. *)
Definition serial_outcome (sn : option ASN1_INTEGER) : ASN1_INTEGER :=
  match sn with
  | Some s => copy_of s
  | None => serialNumber OCSP_CERTID_blank
  end.

(** The identifier [OCSP_cert_id_new] builds once every step has succeeded. *)
Definition finished (obj : ASN1_OBJECT) (nh kh : list byte) (sn : option ASN1_INTEGER)
  : OCSP_CERTID :=
  {| hashAlgorithm :=
       {| algorithm := Some obj;
          parameter := Some (set_at_type ASN1_TYPE_blank V_ASN1_NULL) |};
     issuerNameHash := holding (issuerNameHash OCSP_CERTID_blank) nh;
     issuerKeyHash := holding (issuerKeyHash OCSP_CERTID_blank) kh;
     serialNumber := serial_outcome sn |}.

(** Two strings that agree on every field the struct has, the data being
    compared on the octets the length covers. *)
Definition same_string (a b : ASN1_STRING) : Prop :=
  str_length a = str_length b /\ str_type a = str_type b
  /\ str_flags a = str_flags b /\ str_octets a = str_octets b.

(** The issuer-name hash of [cid] is the digest, under [d], of the DER
    encoding of [name]. *)
Definition name_hash_of (cid : OCSP_CERTID) (d : EVP_MD) (name : X509_NAME) : Prop :=
  exists der h,
    i2d_X509_NAME name = Some der /\ md_compute d der = Some h
    /\ str_octets (issuerNameHash cid) = h
    /\ str_length (issuerNameHash cid) = Z.of_nat (length h).

(** Everything in an identifier but its serial number. *)
Definition without_serial (cid : OCSP_CERTID)
  : X509_ALGOR * ASN1_OCTET_STRING * ASN1_OCTET_STRING :=
  (hashAlgorithm cid, issuerNameHash cid, issuerKeyHash cid).

End Outcome.

(** ** A concrete libcrypto, to run the functions on *)

Module Toy.

(** Five digest descriptors: two ordinary ones, one without a numeric
    identifier, one whose identifier has no registered object, and one whose
    computation fails. *)
Inductive digest : Type :=
  | sha1
  | sha256
  | undefined_md
  | unlisted_md
  | broken_md.

Definition nid_of (d : digest) : Z :=
  match d with
  | sha1 => 64
  | sha256 => 672
  | undefined_md => 0
  | unlisted_md => 9999
  | broken_md => 4
  end.

Definition size_of (d : digest) : nat :=
  match d with
  | sha1 => 20
  | sha256 => 32
  | undefined_md => 0
  | unlisted_md => 16
  | broken_md => 16
  end.

(** A stand-in for a hash: the sum of the input octets modulo 256, repeated
    to the digest's length. *)
Definition checksum (bs : list byte) : byte :=
  match Byte.of_N (N.modulo (fold_left (fun acc b => N.add acc (Byte.to_N b)) bs 0%N) 256) with
  | Some b => b
  | None => x00
  end.

Definition compute (d : digest) (bs : list byte) : option (list byte) :=
  match d with
  | broken_md => None
  | _ => Some (repeat (checksum bs) (size_of d))
  end.

Definition registry (nid : Z) : option ASN1_OBJECT :=
  if nid =? 64 then Some {| obj_nid := 64; obj_data := [x2b; x0e; x03; x02; x1a] |}
  else if nid =? 672 then
    Some {| obj_nid := 672; obj_data := [x60; x86; x48; x01; x65; x03; x04; x02; x01] |}
  else if nid =? 4 then
    Some {| obj_nid := 4; obj_data := [x2a; x86; x48; x86; xf7; x0d; x02; x05] |}
  else None.

(** A name is its encoding; the empty name cannot be encoded. *)
Definition encode_name (n : list byte) : option (list byte) :=
  match n with
  | [] => None
  | _ :: _ => Some n
  end.

Record certificate : Type := mkCertificate {
  issuer_name : list byte;
  subject_name : list byte;
  serial : ASN1_INTEGER;
  pubkey : ASN1_BIT_STRING
}.

Definition blank_string (type : Z) : ASN1_STRING :=
  {| str_length := 0; str_type := type; str_data := []; str_flags := 0 |}.

Definition blank_certid : OCSP_CERTID :=
  {| hashAlgorithm := {| algorithm := Some {| obj_nid := 0; obj_data := [] |};
                         parameter := None |};
     issuerNameHash := blank_string 4;
     issuerKeyHash := blank_string 4;
     serialNumber := blank_string 2 |}.

#[export] Instance crypto : Libcrypto := {|
  EVP_MD := digest;
  X509_NAME := list byte;
  X509 := certificate;
  NID_undef := 0;
  V_ASN1_NULL := 5;
  EVP_sha1 := sha1;
  EVP_MD_type := nid_of;
  EVP_MD_size := size_of;
  md_compute := compute;
  OBJ_nid2obj := registry;
  i2d_X509_NAME := encode_name;
  X509_get_issuer_name := issuer_name;
  X509_get_subject_name := subject_name;
  X509_get0_serialNumber := serial;
  X509_get0_pubkey_bitstr := pubkey;
  OCSP_CERTID_blank := blank_certid;
  ASN1_TYPE_blank := {| at_type := -1; at_value := None |};
  md_indeterminate := repeat xaa 64
|}.

(** A certificate authority and two certificates it issued, which differ in
    their serial numbers only. *)
Definition ca_name : list byte := [x30; x0b; x31; x09; x43; x41].
Definition integer (bs : list byte) : ASN1_INTEGER :=
  {| str_length := Z.of_nat (length bs); str_type := 2; str_data := bs; str_flags := 0 |}.
Definition bit_string (bs : list byte) : ASN1_BIT_STRING :=
  {| str_length := Z.of_nat (length bs); str_type := 3; str_data := bs; str_flags := 8 |}.

Definition ca : certificate :=
  {| issuer_name := ca_name; subject_name := ca_name;
     serial := integer [x01];
     pubkey := bit_string [x30; x0d; x02; x01; x11; xde; xad; xbe; xef] |}.

Definition leaf (serial_octets : list byte) : certificate :=
  {| issuer_name := ca_name; subject_name := [x30; x05; x6c; x65; x61; x66];
     serial := integer serial_octets;
     pubkey := bit_string [x04; x41; x42; x43] |}.

Definition leaf1 : certificate := leaf [x10; x01].
Definition leaf2 : certificate := leaf [x7f; x02; x03].

(** A decoder for the responses that carry a status and nothing else:
    [SEQUENCE { ENUMERATED status }], that is [30 03 0A 01 status]. *)
Definition status_of_code (c : Z) : option ResponseStatus :=
  if c =? OCSP_RESPONSE_STATUS_SUCCESSFUL then Some Successful
  else if c =? OCSP_RESPONSE_STATUS_MALFORMEDREQUEST then Some MalformedRequest
  else if c =? OCSP_RESPONSE_STATUS_INTERNALERROR then Some InternalError
  else if c =? OCSP_RESPONSE_STATUS_TRYLATER then Some TryLater
  else if c =? OCSP_RESPONSE_STATUS_SIGREQUIRED then Some SigRequired
  else if c =? OCSP_RESPONSE_STATUS_UNAUTHORIZED then Some Unauthorized
  else None.

Definition d2i_status_only (bs : list byte) : ResponseStatus + decode_error :=
  match bs with
  | [x30; x03; x0a; x01; s] =>
      match status_of_code (byte_value s) with
      | Some st => inl st
      | None => inr UnsupportedStatus
      end
  | _ => inr MalformedEncoding
  end.

Definition try_later_response : list byte := [x30; x03; x0a; x01; x03].

End Toy.

(** ** Certificate status and responder identifier tags
    (CCollectionSigning_ocsp.h, lines 46-47 and 55-57) *)

Definition V_OCSP_RESPID_NAME : Z := 0.
Definition V_OCSP_RESPID_KEY : Z := 1.

Definition V_OCSP_CERTSTATUS_GOOD : Z := 0.
Definition V_OCSP_CERTSTATUS_REVOKED : Z := 1.
Definition V_OCSP_CERTSTATUS_UNKNOWN : Z := 2.

(** The enumeration the three certificate status macros stand for. *)
Inductive CertStatus : Type :=
  | Good
  | Revoked
  | Unknown.

Definition cert_status_code (s : CertStatus) : Z :=
  match s with
  | Good => V_OCSP_CERTSTATUS_GOOD
  | Revoked => V_OCSP_CERTSTATUS_REVOKED
  | Unknown => V_OCSP_CERTSTATUS_UNKNOWN
  end.

(** ** The result of [OCSP_cert_id_new] in closed form *)

Section ClosedForm.

Context {L : Libcrypto}.

(** What [OCSP_cert_id_new] returns, told from the outcomes of the libcrypto
    calls alone: no buffer, no intermediate identifier. *)
Definition cert_id_outcome (d : EVP_MD) (name : X509_NAME) (key : ASN1_BIT_STRING)
    (sn : option ASN1_INTEGER) (m : list bool) : option OCSP_CERTID :=
  if negb (allocations_succeed (allocations_needed sn) m) then None
  else if EVP_MD_type d =? NID_undef then None
  else
    match OBJ_nid2obj (EVP_MD_type d), i2d_X509_NAME name with
    | Some obj, Some der =>
        match md_compute d der, md_compute d (str_octets key) with
        | Some nh, Some kh => Some (finished obj nh kh sn)
        | _, _ => None
        end
    | _, _ => None
    end.

(** The same libcrypto with other bytes left on the stack where
    [OCSP_cert_id_new] has its buffer [md]. *)
Definition with_stack_bytes (md : list byte) : Libcrypto :=
  {| EVP_MD := EVP_MD;
     X509_NAME := X509_NAME;
     X509 := X509;
     NID_undef := NID_undef;
     V_ASN1_NULL := V_ASN1_NULL;
     EVP_sha1 := EVP_sha1;
     EVP_MD_type := EVP_MD_type;
     EVP_MD_size := EVP_MD_size;
     md_compute := md_compute;
     OBJ_nid2obj := OBJ_nid2obj;
     i2d_X509_NAME := i2d_X509_NAME;
     X509_get_issuer_name := X509_get_issuer_name;
     X509_get_subject_name := X509_get_subject_name;
     X509_get0_serialNumber := X509_get0_serialNumber;
     X509_get0_pubkey_bitstr := X509_get0_pubkey_bitstr;
     OCSP_CERTID_blank := OCSP_CERTID_blank;
     ASN1_TYPE_blank := ASN1_TYPE_blank;
     md_indeterminate := md |}.

(** The object registry answers a numeric identifier with an object that
    carries that identifier. *)
Definition registry_coherent : Prop :=
  forall (nid : Z) (obj : ASN1_OBJECT), OBJ_nid2obj nid = Some obj -> obj_nid obj = nid.

End ClosedForm.

(** ** More certificates for the concrete libcrypto *)

Module Samples.

(** A certificate with the key of [Toy.ca] under another name, its bit
    string held in a larger buffer and with other flags. *)
Definition padded_key : ASN1_BIT_STRING :=
  {| str_length := 9; str_type := 3;
     str_data := [x30; x0d; x02; x01; x11; xde; xad; xbe; xef; x00; xff];
     str_flags := 0 |}.

Definition renamed_ca : Toy.certificate :=
  {| Toy.issuer_name := [x30; x03; x6f; x6c; x64];
     Toy.subject_name := [x30; x03; x6e; x65; x77];
     Toy.serial := Toy.integer [x09];
     Toy.pubkey := padded_key |}.

End Samples.

(** ** Digests and object identifiers *)

Section ObjectIdentifiers.

Context {L : Libcrypto}.

(** The digest has no registered object identifier: it has no numeric
    identifier, or the registry holds no object for it, or the object it
    holds carries no encoded identifier ([length] 0, no [data]). *)
Definition lacks_object_identifier (d : EVP_MD) : Prop :=
  EVP_MD_type d = NID_undef
  \/ match OBJ_nid2obj (EVP_MD_type d) with
     | None => True
     | Some obj => obj_data obj = []
     end.

End ObjectIdentifiers.

(** A libcrypto with the MD5 and SHA-1 combination used by TLS 1.0: the
    registry knows its numeric identifier, 114, but the object it holds has
    no object identifier. *)
Module Md5Sha1.

Inductive digest : Type :=
  | sha1
  | md5_sha1.

Definition nid_of (d : digest) : Z :=
  match d with
  | sha1 => 64
  | md5_sha1 => 114
  end.

Definition size_of (d : digest) : nat :=
  match d with
  | sha1 => 20
  | md5_sha1 => 36
  end.

Definition compute (d : digest) (bs : list byte) : option (list byte) :=
  Some (repeat (Toy.checksum bs) (size_of d)).

Definition registry (nid : Z) : option ASN1_OBJECT :=
  if nid =? 64 then Some {| obj_nid := 64; obj_data := [x2b; x0e; x03; x02; x1a] |}
  else if nid =? 114 then Some {| obj_nid := 114; obj_data := [] |}
  else None.

Definition crypto : Libcrypto := {|
  EVP_MD := digest;
  X509_NAME := list byte;
  X509 := Toy.certificate;
  NID_undef := 0;
  V_ASN1_NULL := 5;
  EVP_sha1 := sha1;
  EVP_MD_type := nid_of;
  EVP_MD_size := size_of;
  md_compute := compute;
  OBJ_nid2obj := registry;
  i2d_X509_NAME := Toy.encode_name;
  X509_get_issuer_name := Toy.issuer_name;
  X509_get_subject_name := Toy.subject_name;
  X509_get0_serialNumber := Toy.serial;
  X509_get0_pubkey_bitstr := Toy.pubkey;
  OCSP_CERTID_blank := Toy.blank_certid;
  ASN1_TYPE_blank := {| at_type := -1; at_value := None |};
  md_indeterminate := repeat xaa 64
|}.

End Md5Sha1.

(** * Properties *)

(** ** Running [Alloc] computations *)

Lemma bind_returns {A B : Type} (c : Alloc A) (k : A -> Alloc B) m b :
  returned (bind c k) m = Some b ->
  exists a m', c m = (Some a, m') /\ returned (k a) m' = Some b.
Proof.
  unfold returned, bind. destruct (c m) as [[a|] m'] eqn:E; simpl; intros H.
  - exists a, m'. split; [reflexivity | exact H].
  - discriminate H.
Qed.

Lemma ensure_returns {A : Type} (o : option A) m a m' :
  ensure o m = (Some a, m') -> o = Some a /\ m' = m.
Proof. unfold ensure. intros H. inversion H. split; reflexivity. Qed.

Lemma bind_run {A B : Type} (c : Alloc A) (k : A -> Alloc B) m o m' :
  c m = (o, m') ->
  bind c k m = match o with Some a => k a m' | None => (None, m') end.
Proof. unfold bind. intros ->. reflexivity. Qed.

Lemma guarded_returns {A : Type} (ok : bool) (x a : A) (m0 m' : list bool) :
  (if ok then Some x else None, m0) = (Some a, m') ->
  ok = true /\ a = x /\ m' = m0.
Proof. destruct ok; intros H; inversion H. repeat split. Qed.

(** The outcome of the next allocation is the head of the list, and [true]
    once the list is exhausted. *)
Lemma malloc_run m :
  OPENSSL_malloc m = (if hd true m then Some tt else None, tl m).
Proof. destruct m as [|[] m0]; reflexivity. Qed.

Lemma allocations_succeed_0 m : allocations_succeed 0 m = true.
Proof. reflexivity. Qed.

Lemma allocations_succeed_S k m :
  allocations_succeed (S k) m = true <->
  hd true m = true /\ allocations_succeed k (tl m) = true.
Proof.
  unfold allocations_succeed. destruct m as [|b m]; simpl.
  - rewrite firstn_nil. simpl. tauto.
  - rewrite andb_true_iff. tauto.
Qed.

Lemma allocations_needed_split sn m :
  allocations_succeed (allocations_needed sn) m = true <->
  hd true m = true
  /\ hd true (tl m) = true
  /\ hd true (tl (tl m)) = true
  /\ hd true (tl (tl (tl m))) = true
  /\ (sn <> None -> hd true (tl (tl (tl (tl m)))) = true).
Proof.
  destruct sn as [s|]; unfold allocations_needed.
  - rewrite !allocations_succeed_S.
    pose proof (allocations_succeed_0 (tl (tl (tl (tl (tl m)))))) as A0.
    split.
    + intros (A1 & A2 & A3 & A4 & A5 & _). repeat (split; [assumption|]).
      intros _. exact A5.
    + intros (A1 & A2 & A3 & A4 & A5). repeat (split; [assumption|]).
      split; [apply A5; discriminate | exact A0].
  - rewrite !allocations_succeed_S.
    pose proof (allocations_succeed_0 (tl (tl (tl (tl m))))) as A0.
    split.
    + intros (A1 & A2 & A3 & A4 & _). repeat (split; [assumption|]).
      intros C; contradiction C; reflexivity.
    + intros (A1 & A2 & A3 & A4 & _). repeat (split; [assumption|]). exact A0.
Qed.

(** ** Buffers *)

Lemma overwrite_front (h md : list byte) :
  firstn (Z.to_nat (Z.of_nat (length h))) (h ++ skipn (length h) md) = h.
Proof.
  rewrite Nat2Z.id. rewrite firstn_app, Nat.sub_diag, firstn_all. simpl.
  apply app_nil_r.
Qed.

Lemma firstn_whole (bs : list byte) :
  firstn (Z.to_nat (Z.of_nat (length bs))) bs = bs.
Proof. rewrite Nat2Z.id. apply firstn_all. Qed.

Section CertIDLemmas.

Context {L : Libcrypto}.

(** *** The libcrypto calls, one by one *)

Lemma CERTID_new_run m :
  OCSP_CERTID_new m =
  (if hd true m then Some OCSP_CERTID_blank else None, tl m).
Proof. destruct m as [|[] m0]; reflexivity. Qed.

Lemma TYPE_new_run m :
  ASN1_TYPE_new m =
  (if hd true m then Some ASN1_TYPE_blank else None, tl m).
Proof. destruct m as [|[] m0]; reflexivity. Qed.

Lemma STRING_set_run str data len m :
  ASN1_STRING_set str data len m =
  (if hd true m
   then Some {| str_length := len; str_type := str_type str;
                str_data := firstn (Z.to_nat len) data; str_flags := str_flags str |}
   else None, tl m).
Proof. destruct m as [|[] m0]; reflexivity. Qed.

Lemma STRING_copy_run dst src m :
  ASN1_STRING_copy dst src m =
  (if hd true m then Some (copy_of src) else None, tl m).
Proof. destruct m as [|[] m0]; reflexivity. Qed.

Lemma Digest_run data count md d :
  EVP_Digest data count md d =
  match md_compute d (firstn (Z.to_nat count) data) with
  | Some h => Some (h ++ skipn (length h) md, Z.of_nat (length h))
  | None => None
  end.
Proof. reflexivity. Qed.

Lemma NAME_digest_run name d md :
  X509_NAME_digest name d md =
  match i2d_X509_NAME name with
  | Some der =>
      match md_compute d der with
      | Some h => Some (h ++ skipn (length h) md, Z.of_nat (length h))
      | None => None
      end
  | None => None
  end.
Proof.
  unfold X509_NAME_digest, EVP_Digest.
  destruct (i2d_X509_NAME name) as [der|]; [|reflexivity].
  rewrite firstn_whole. reflexivity.
Qed.

(** What is stored when the front [i] bytes of the buffer are the digest. *)
Lemma store_digest old h md :
  {| str_length := Z.of_nat (length h); str_type := str_type old;
     str_data := firstn (Z.to_nat (Z.of_nat (length h))) (h ++ skipn (length h) md);
     str_flags := str_flags old |} = holding old h.
Proof. unfold holding. rewrite overwrite_front. reflexivity. Qed.

(** *** The whole of [OCSP_cert_id_new] *)

(** Every identifier [OCSP_cert_id_new] returns is a [finished] one, and each
    libcrypto call on the way succeeded. *)
Lemma cert_id_new_returns d name key sn m cid :
  returned (OCSP_cert_id_new d name key sn) m = Some cid ->
  exists obj der nh kh,
    allocations_succeed (allocations_needed sn) m = true
    /\ EVP_MD_type d <> NID_undef
    /\ OBJ_nid2obj (EVP_MD_type d) = Some obj
    /\ i2d_X509_NAME name = Some der
    /\ md_compute d der = Some nh
    /\ md_compute d (str_octets key) = Some kh
    /\ cid = finished obj nh kh sn.
Proof.
  unfold OCSP_cert_id_new. intros H.
  apply bind_returns in H. destruct H as (c0 & m0 & Hnew & H).
  rewrite CERTID_new_run in Hnew. apply guarded_returns in Hnew.
  destruct Hnew as (A1 & -> & ->).
  destruct (EVP_MD_type d =? NID_undef) eqn:Hnid; [discriminate H|].
  apply Z.eqb_neq in Hnid.
  apply bind_returns in H. destruct H as (obj & m1 & Hobj & H).
  apply ensure_returns in Hobj. destruct Hobj as [Hobj ->].
  apply bind_returns in H. destruct H as (par & m2 & Hpar & H).
  rewrite TYPE_new_run in Hpar. apply guarded_returns in Hpar.
  destruct Hpar as (A2 & -> & ->).
  apply bind_returns in H. destruct H as ([md1 i1] & m3 & Hnd & H).
  apply ensure_returns in Hnd. destruct Hnd as [Hnd ->].
  rewrite NAME_digest_run in Hnd.
  destruct (i2d_X509_NAME name) as [der|] eqn:Hder; [|discriminate Hnd].
  destruct (md_compute d der) as [nh|] eqn:Hnh; [|discriminate Hnd].
  inversion Hnd; subst md1 i1; clear Hnd.
  apply bind_returns in H. destruct H as (s1 & m4 & Hs1 & H).
  unfold ASN1_OCTET_STRING_set in Hs1.
  rewrite STRING_set_run in Hs1. apply guarded_returns in Hs1.
  destruct Hs1 as (A3 & -> & ->).
  apply bind_returns in H. destruct H as ([md2 i2] & m5 & Hkd & H).
  apply ensure_returns in Hkd. destruct Hkd as [Hkd ->].
  rewrite Digest_run in Hkd. fold (str_octets key) in Hkd.
  destruct (md_compute d (str_octets key)) as [kh|] eqn:Hkh; [|discriminate Hkd].
  inversion Hkd; subst md2 i2; clear Hkd.
  apply bind_returns in H. destruct H as (s2 & m6 & Hs2 & H).
  unfold ASN1_OCTET_STRING_set in Hs2.
  rewrite STRING_set_run in Hs2. apply guarded_returns in Hs2.
  destruct Hs2 as (A4 & -> & ->).
  exists obj, der, nh, kh.
  rewrite allocations_needed_split.
  destruct sn as [s|].
  - apply bind_returns in H. destruct H as (s3 & m7 & Hs3 & H).
    rewrite STRING_copy_run in Hs3. apply guarded_returns in Hs3.
    destruct Hs3 as (A5 & -> & ->).
    unfold returned, ret in H. cbn [fst] in H. inversion H.
    split. { repeat (split; [assumption|]). intros _. exact A5. }
    repeat (split; [assumption || reflexivity|]).
    unfold finished, set_serialNumber, set_issuerKeyHash, set_issuerNameHash,
      set_hashAlgorithm, set_parameter, set_algorithm. cbn.
    rewrite !store_digest. reflexivity.
  - unfold returned, ret in H. cbn [fst] in H. inversion H.
    split. { repeat (split; [assumption|]). intros C; contradiction C; reflexivity. }
    repeat (split; [assumption || reflexivity|]).
    unfold finished, set_issuerKeyHash, set_issuerNameHash,
      set_hashAlgorithm, set_parameter, set_algorithm. cbn.
    rewrite !store_digest. reflexivity.
Qed.

(** Conversely, when every libcrypto call succeeds, so does the function. *)
Lemma cert_id_new_succeeds d name key sn m obj der nh kh :
  allocations_succeed (allocations_needed sn) m = true ->
  EVP_MD_type d <> NID_undef ->
  OBJ_nid2obj (EVP_MD_type d) = Some obj ->
  i2d_X509_NAME name = Some der ->
  md_compute d der = Some nh ->
  md_compute d (str_octets key) = Some kh ->
  returned (OCSP_cert_id_new d name key sn) m = Some (finished obj nh kh sn).
Proof.
  intros HA Hnid Hobj Hder Hnh Hkh.
  apply allocations_needed_split in HA. destruct HA as (A1 & A2 & A3 & A4 & A5).
  apply Z.eqb_neq in Hnid.
  unfold returned, OCSP_cert_id_new.
  rewrite (bind_run _ _ _ _ _ (CERTID_new_run m)), A1, Hnid.
  unfold ensure at 1. unfold bind at 1. rewrite Hobj.
  rewrite (bind_run _ _ _ _ _ (TYPE_new_run (tl m))), A2.
  unfold ensure at 1. unfold bind at 1.
  rewrite NAME_digest_run, Hder, Hnh.
  unfold ASN1_OCTET_STRING_set.
  rewrite (bind_run _ _ _ _ _ (STRING_set_run _ _ _ (tl (tl m)))), A3.
  unfold ensure at 1. unfold bind at 1.
  rewrite Digest_run. fold (str_octets key). rewrite Hkh.
  rewrite (bind_run _ _ _ _ _ (STRING_set_run _ _ _ (tl (tl (tl m))))), A4.
  destruct sn as [s|].
  - rewrite (bind_run _ _ _ _ _ (STRING_copy_run _ _ (tl (tl (tl (tl m)))))).
    rewrite A5 by discriminate.
    unfold ret, finished, set_serialNumber, set_issuerKeyHash, set_issuerNameHash,
      set_hashAlgorithm, set_parameter, set_algorithm. cbn.
    rewrite !store_digest. reflexivity.
  - unfold ret, finished, set_issuerKeyHash, set_issuerNameHash,
      set_hashAlgorithm, set_parameter, set_algorithm. cbn.
    rewrite !store_digest. reflexivity.
Qed.

End CertIDLemmas.

(** ** Certificate identifiers *)

Section CertIDProperties.

Context {L : Libcrypto}.

Lemma holding_octets old h : str_octets (holding old h) = h.
Proof. unfold str_octets, holding. simpl. apply firstn_whole. Qed.

Lemma copy_of_same s : same_string (copy_of s) s.
Proof.
  unfold same_string, copy_of, str_octets. simpl.
  repeat (split; [reflexivity|]).
  rewrite firstn_firstn, Nat.min_id. reflexivity.
Qed.

(** [OCSP_cert_to_id] returns what [OCSP_cert_id_new] returns for the fields
    it picked. *)
Lemma cert_to_id_call dgst subject issuer m :
  returned (OCSP_cert_to_id dgst subject issuer) m =
  returned (OCSP_cert_id_new (digest_or_sha1 dgst) (selected_name subject issuer)
              (X509_get0_pubkey_bitstr issuer) (selected_serial subject)) m.
Proof. destruct dgst, subject; reflexivity. Qed.

(** Lines 54-58: without a numeric identifier, or without an object
    registered for it, nothing is returned. *)
Lemma cert_id_new_unsupported d name key sn m :
  EVP_MD_type d = NID_undef \/ OBJ_nid2obj (EVP_MD_type d) = None ->
  returned (OCSP_cert_id_new d name key sn) m = None.
Proof.
  intros Hbad.
  destruct (returned (OCSP_cert_id_new d name key sn) m) as [cid|] eqn:E; [|reflexivity].
  apply cert_id_new_returns in E.
  destruct E as (obj & der & nh & kh & _ & Hnid & Hobj & _).
  destruct Hbad as [Hu | Hn].
  - contradiction.
  - rewrite Hn in Hobj. discriminate Hobj.
Qed.

(** C1. For every digest algorithm (the default included) and every issuer
    certificate, the issuer-key hash of the identifier built from it is the
    digest of the octets of the issuer's public-key bit string -- its
    [data[0 .. length)], the content without any tag or length octet -- and
    of nothing else: the stored octets and the stored length are those of
    that digest. *)
Theorem key_hash_digests_bit_string_octets
    (dgst : option EVP_MD) (subject : option X509) (issuer : X509)
    (m : list bool) (cid : OCSP_CERTID) :
  returned (OCSP_cert_to_id dgst subject issuer) m = Some cid ->
  exists h,
    md_compute (digest_or_sha1 dgst) (str_octets (X509_get0_pubkey_bitstr issuer)) = Some h
    /\ str_octets (issuerKeyHash cid) = h
    /\ str_data (issuerKeyHash cid) = h
    /\ str_length (issuerKeyHash cid) = Z.of_nat (length h).
Proof.
  rewrite cert_to_id_call. intros H.
  apply cert_id_new_returns in H.
  destruct H as (obj & der & nh & kh & _ & _ & _ & _ & _ & Hkh & ->).
  exists kh. split; [exact Hkh|]. unfold finished. cbn [issuerKeyHash].
  split; [apply holding_octets|]. split; reflexivity.
Qed.

(** C2. With a subject certificate, the name hashed is the subject's issuer
    field and the serial number of the identifier is the subject's serial
    number; without one, the name hashed is the issuer certificate's own
    subject field and the serial number is left as allocated. *)
Theorem cert_to_id_name_and_serial
    (dgst : option EVP_MD) (subject : option X509) (issuer : X509)
    (m : list bool) (cid : OCSP_CERTID) :
  returned (OCSP_cert_to_id dgst subject issuer) m = Some cid ->
  match subject with
  | Some s =>
      name_hash_of cid (digest_or_sha1 dgst) (X509_get_issuer_name s)
      /\ same_string (serialNumber cid) (X509_get0_serialNumber s)
  | None =>
      name_hash_of cid (digest_or_sha1 dgst) (X509_get_subject_name issuer)
      /\ serialNumber cid = serialNumber OCSP_CERTID_blank
  end.
Proof.
  intros H. rewrite cert_to_id_call in H.
  apply cert_id_new_returns in H.
  destruct H as (obj & der & nh & kh & _ & _ & _ & Hder & Hnh & _ & ->).
  assert (Hname : name_hash_of (finished obj nh kh (selected_serial subject))
                    (digest_or_sha1 dgst) (selected_name subject issuer)).
  { exists der, nh. repeat (split; [assumption|]).
    unfold finished. cbn [issuerNameHash]. split; [apply holding_octets | reflexivity]. }
  destruct subject as [s|]; split; try exact Hname.
  - unfold finished. cbn [serialNumber selected_serial serial_outcome]. apply copy_of_same.
  - reflexivity.
Qed.

(** C3. When digests have their declared length, an identifier built for the
    digest [D] names [D] as its hash algorithm (the object registered for
    [D]'s numeric identifier) and both of its hashes have exactly
    [EVP_MD_size D] octets. *)
Theorem cert_id_algorithm_and_hash_lengths
    (D : EVP_MD) (subject : option X509) (issuer : X509)
    (m : list bool) (cid : OCSP_CERTID) :
  fixed_length_digests L ->
  returned (OCSP_cert_to_id (Some D) subject issuer) m = Some cid ->
  EVP_MD_type D <> NID_undef
  /\ (exists obj, OBJ_nid2obj (EVP_MD_type D) = Some obj
                  /\ algorithm (hashAlgorithm cid) = Some obj)
  /\ str_length (issuerNameHash cid) = Z.of_nat (EVP_MD_size D)
  /\ length (str_octets (issuerNameHash cid)) = EVP_MD_size D
  /\ str_length (issuerKeyHash cid) = Z.of_nat (EVP_MD_size D)
  /\ length (str_octets (issuerKeyHash cid)) = EVP_MD_size D.
Proof.
  intros Hlen H. rewrite cert_to_id_call in H.
  apply cert_id_new_returns in H. cbn [digest_or_sha1] in H.
  destruct H as (obj & der & nh & kh & _ & Hnid & Hobj & _ & Hnh & Hkh & ->).
  apply Hlen in Hnh. apply Hlen in Hkh.
  split; [exact Hnid|]. split; [exists obj; split; [exact Hobj | reflexivity]|].
  unfold finished. cbn [issuerNameHash issuerKeyHash].
  rewrite !holding_octets. unfold holding. cbn [str_length].
  rewrite Hnh, Hkh. repeat split; reflexivity.
Qed.

(** C4. A null digest builds exactly what SHA-1 builds: the same result and
    the same allocations. *)
Theorem null_digest_is_sha1 (subject : option X509) (issuer : X509) (m : list bool) :
  OCSP_cert_to_id None subject issuer m = OCSP_cert_to_id (Some EVP_sha1) subject issuer m.
Proof. reflexivity. Qed.

(** C5, as amended.  When the digest has no numeric identifier
    ([EVP_MD_type] is [NID_undef]) or the registry holds no object for its
    numeric identifier, the construction fails: the function returns NULL,
    which is how it reports every error, without an error kind.  Whatever
    the inputs the result is all or nothing: NULL, or an identifier whose
    four fields are all set from libcrypto calls that all succeeded.  The
    object found is not inspected, so a digest whose object carries no
    object identifier is not among the failures. *)
Theorem unsupported_digest_fails_all_or_nothing
    (d : EVP_MD) (name : X509_NAME) (key : ASN1_BIT_STRING)
    (sn : option ASN1_INTEGER) (m : list bool) :
  (EVP_MD_type d = NID_undef \/ OBJ_nid2obj (EVP_MD_type d) = None ->
   returned (OCSP_cert_id_new d name key sn) m = None)
  /\ (returned (OCSP_cert_id_new d name key sn) m = None
      \/ exists obj der nh kh,
           OBJ_nid2obj (EVP_MD_type d) = Some obj
           /\ i2d_X509_NAME name = Some der
           /\ md_compute d der = Some nh
           /\ md_compute d (str_octets key) = Some kh
           /\ returned (OCSP_cert_id_new d name key sn) m = Some (finished obj nh kh sn)).
Proof.
  split.
  - apply cert_id_new_unsupported.
  - destruct (returned (OCSP_cert_id_new d name key sn) m) as [cid|] eqn:E.
    + right. apply cert_id_new_returns in E.
      destruct E as (obj & der & nh & kh & _ & _ & Hobj & Hder & Hnh & Hkh & ->).
      exists obj, der, nh, kh. auto.
    + left. reflexivity.
Qed.

(** C6. Two subject certificates that differ in their serial numbers only
    (they carry the same issuer name) give, for the same digest and issuer,
    identifiers that differ in the serial number only: both calls fail or
    both succeed, the hash algorithm and the two hashes are the same, and
    each identifier carries the serial number of its own subject. *)
Theorem serial_changes_serial_only
    (dgst : option EVP_MD) (s s' : X509) (issuer : X509) (m : list bool) :
  X509_get_issuer_name s = X509_get_issuer_name s' ->
  option_map without_serial (returned (OCSP_cert_to_id dgst (Some s) issuer) m)
  = option_map without_serial (returned (OCSP_cert_to_id dgst (Some s') issuer) m)
  /\ (forall cid, returned (OCSP_cert_to_id dgst (Some s) issuer) m = Some cid ->
                  same_string (serialNumber cid) (X509_get0_serialNumber s))
  /\ (forall cid', returned (OCSP_cert_to_id dgst (Some s') issuer) m = Some cid' ->
                   same_string (serialNumber cid') (X509_get0_serialNumber s')).
Proof.
  intros Hname. rewrite !cert_to_id_call. cbn [selected_name selected_serial].
  rewrite <- Hname.
  set (d := digest_or_sha1 dgst). set (n := X509_get_issuer_name s).
  set (k := X509_get0_pubkey_bitstr issuer).
  assert (Hframe : forall a b cid,
            returned (OCSP_cert_id_new d n k (Some a)) m = Some cid ->
            exists cid', returned (OCSP_cert_id_new d n k (Some b)) m = Some cid'
                         /\ without_serial cid = without_serial cid'
                         /\ same_string (serialNumber cid) a).
  { intros a b cid H. apply cert_id_new_returns in H.
    destruct H as (obj & der & nh & kh & HA & Hnid & Hobj & Hder & Hnh & Hkh & ->).
    exists (finished obj nh kh (Some b)). split.
    - apply (cert_id_new_succeeds d n k (Some b) m obj der nh kh); assumption.
    - split; [reflexivity | apply copy_of_same]. }
  split; [|split].
  - destruct (returned (OCSP_cert_id_new d n k (Some (X509_get0_serialNumber s))) m)
      as [c|] eqn:E.
    + destruct (Hframe _ (X509_get0_serialNumber s') _ E) as (c' & E' & Hw & _).
      rewrite E'. simpl. rewrite Hw. reflexivity.
    + destruct (returned (OCSP_cert_id_new d n k (Some (X509_get0_serialNumber s'))) m)
        as [c'|] eqn:E'; [|reflexivity].
      destruct (Hframe _ (X509_get0_serialNumber s) _ E') as (c & Ec & _).
      rewrite Ec in E. discriminate E.
  - intros cid H. destruct (Hframe _ (X509_get0_serialNumber s') _ H) as (_ & _ & _ & Hs).
    exact Hs.
  - intros cid H. destruct (Hframe _ (X509_get0_serialNumber s) _ H) as (_ & _ & _ & Hs).
    exact Hs.
Qed.

(** C9. [OCSP_cert_to_id] is field extraction followed by one call of
    [OCSP_cert_id_new]: the name and serial number chosen by the presence of
    a subject, the issuer's public-key bit string, and SHA-1 for a null
    digest.  Results and allocations coincide. *)
Theorem cert_to_id_delegates
    (dgst : option EVP_MD) (subject : option X509) (issuer : X509) (m : list bool) :
  OCSP_cert_to_id dgst subject issuer m = cert_to_id_by_delegation dgst subject issuer m.
Proof.
  unfold OCSP_cert_to_id, cert_to_id_by_delegation.
  destruct dgst as [d|]; destruct subject as [s|]; reflexivity.
Qed.

(** C10. In every identifier [OCSP_cert_id_new] returns, the parameter of
    the hash algorithm is present and its type is V_ASN1_NULL. *)
Theorem algorithm_parameter_is_asn1_null
    (d : EVP_MD) (name : X509_NAME) (key : ASN1_BIT_STRING)
    (sn : option ASN1_INTEGER) (m : list bool) (cid : OCSP_CERTID) :
  returned (OCSP_cert_id_new d name key sn) m = Some cid ->
  exists par, parameter (hashAlgorithm cid) = Some par /\ at_type par = V_ASN1_NULL.
Proof.
  intros H. apply cert_id_new_returns in H.
  destruct H as (obj & der & nh & kh & _ & _ & _ & _ & _ & _ & ->).
  exists (set_at_type ASN1_TYPE_blank V_ASN1_NULL). split; reflexivity.
Qed.

End CertIDProperties.

(** ** Response status codes *)

(** C7. The six statuses have the codes 0, 1, 2, 3, 5 and 6, and no status
    has the code 4. *)
Theorem response_status_codes :
  status_code Successful = 0
  /\ status_code MalformedRequest = 1
  /\ status_code InternalError = 2
  /\ status_code TryLater = 3
  /\ status_code SigRequired = 5
  /\ status_code Unauthorized = 6
  /\ (forall s : ResponseStatus, status_code s <> 4).
Proof.
  repeat (split; [reflexivity|]).
  intros s. destruct s; discriminate.
Qed.

(** ** Reading a response *)

(** The bytes after the length octets are a suffix of the input. *)
Lemma der_length_suffix bs len body :
  der_length bs = Some (len, body) -> (length body <= length bs)%nat.
Proof.
  unfold der_length. destruct bs as [|b rest]; [discriminate|].
  destruct (byte_value b <? 128).
  - intros H. inversion H. simpl. lia.
  - destruct (Z.to_nat (byte_value b - 128) =? 0)%nat; [discriminate|].
    destruct (length rest <? Z.to_nat (byte_value b - 128))%nat; [discriminate|].
    intros H. inversion H. rewrite length_skipn. simpl. lia.
Qed.

(** Bytes appended to the input do not change the length that is read. *)
Lemma der_length_app bs t len body :
  der_length bs = Some (len, body) ->
  der_length (bs ++ t) = Some (len, body ++ t).
Proof.
  unfold der_length. destruct bs as [|b rest]; [discriminate|].
  rewrite <- app_comm_cons.
  destruct (byte_value b <? 128).
  - intros H. inversion H. reflexivity.
  - destruct (Z.to_nat (byte_value b - 128) =? 0)%nat; [discriminate|].
    destruct (length rest <? Z.to_nat (byte_value b - 128))%nat eqn:Hshort;
      [discriminate|].
    apply Nat.ltb_ge in Hshort.
    intros H. inversion H; subst len body; clear H.
    assert (Hlong : (length (rest ++ t) <? Z.to_nat (byte_value b - 128))%nat = false).
    { apply Nat.ltb_ge. rewrite length_app. lia. }
    rewrite Hlong.
    rewrite firstn_app, skipn_app.
    replace (Z.to_nat (byte_value b - 128) - length rest)%nat with 0%nat by lia.
    simpl. rewrite app_nil_r. reflexivity.
Qed.

(** Bytes appended to the input do not change the top-level structure that
    is read; they are found after it. *)
Lemma der_split_app buf t structure rest :
  der_split buf = Some (structure, rest) ->
  der_split (buf ++ t) = Some (structure, rest ++ t).
Proof.
  unfold der_split. destruct buf as [|tag after]; [discriminate|].
  rewrite <- app_comm_cons.
  destruct (der_length after) as [[len body]|] eqn:Hlen; [|discriminate].
  rewrite (der_length_app _ t _ _ Hlen).
  pose proof (der_length_suffix _ _ _ Hlen) as Hsuffix.
  destruct (Z.of_nat (length body) <? len) eqn:Hshort; [discriminate|].
  apply Z.ltb_ge in Hshort.
  assert (Hlong : (Z.of_nat (length (body ++ t)) <? len) = false).
  { apply Z.ltb_ge. rewrite length_app. lia. }
  rewrite Hlong.
  intros H. inversion H; subst structure rest; clear H.
  rewrite !app_comm_cons.
  set (buf := tag :: after) in *.
  assert (Hbuf : length buf = S (length after)) by reflexivity.
  replace (length (buf ++ t) - length (body ++ t))%nat
    with (length buf - length body)%nat by (rewrite !length_app; lia).
  set (total := (length buf - length body + Z.to_nat len)%nat).
  assert (Htotal : (total <= length buf)%nat) by (unfold total; lia).
  rewrite firstn_app, skipn_app.
  replace (total - length buf)%nat with 0%nat by lia.
  simpl. rewrite app_nil_r. reflexivity.
Qed.

(** C8. A buffer that is a valid, complete response encoding -- one that is
    decoded when it stands alone -- followed by at least one more byte is
    rejected with [TrailingDataError]. *)
Theorem trailing_bytes_are_rejected
    (OCSP_RESPONSE : Type) (d2i_OCSP_RESPONSE : list byte -> OCSP_RESPONSE + decode_error)
    (encoding trailing : list byte) (response : OCSP_RESPONSE) :
  d2i_OCSP_RESPONSE_bio OCSP_RESPONSE d2i_OCSP_RESPONSE encoding = inl response ->
  trailing <> [] ->
  d2i_OCSP_RESPONSE_bio OCSP_RESPONSE d2i_OCSP_RESPONSE (encoding ++ trailing)
  = inr TrailingDataError.
Proof.
  unfold d2i_OCSP_RESPONSE_bio, ASN1_d2i_bio. intros Hvalid Hmore.
  destruct (der_split encoding) as [[structure rest]|] eqn:Hsplit; [|discriminate Hvalid].
  destruct rest as [|b rest]; [|discriminate Hvalid].
  rewrite (der_split_app _ trailing _ _ Hsplit). simpl.
  destruct trailing as [|b trailing]; [contradiction Hmore; reflexivity | reflexivity].
Qed.

(** ** Further properties of the certificate identifier functions *)

Section MoreCertID.

Context {L : Libcrypto}.

(** [OCSP_cert_id_new] returns what the closed form says. *)
Lemma cert_id_new_outcome d name key sn m :
  returned (OCSP_cert_id_new d name key sn) m = cert_id_outcome d name key sn m.
Proof.
  destruct (returned (OCSP_cert_id_new d name key sn) m) as [cid|] eqn:E.
  - apply cert_id_new_returns in E.
    destruct E as (obj & der & nh & kh & HA & Hnid & Hobj & Hder & Hnh & Hkh & ->).
    apply Z.eqb_neq in Hnid.
    unfold cert_id_outcome. rewrite HA, Hnid, Hobj, Hder, Hnh, Hkh. reflexivity.
  - unfold cert_id_outcome.
    destruct (allocations_succeed (allocations_needed sn) m) eqn:HA; [|reflexivity].
    destruct (EVP_MD_type d =? NID_undef) eqn:Hnid; [reflexivity|].
    apply Z.eqb_neq in Hnid.
    destruct (OBJ_nid2obj (EVP_MD_type d)) as [obj|] eqn:Hobj; [|reflexivity].
    destruct (i2d_X509_NAME name) as [der|] eqn:Hder; [|reflexivity].
    destruct (md_compute d der) as [nh|] eqn:Hnh; [|reflexivity].
    destruct (md_compute d (str_octets key)) as [kh|] eqn:Hkh; [|reflexivity].
    rewrite (cert_id_new_succeeds d name key sn m obj der nh kh) in E by assumption.
    discriminate E.
Qed.

End MoreCertID.

Section MoreCertIDProperties.

Context {L : Libcrypto}.

(** X1. [OCSP_cert_id_new] returns an identifier exactly when the digest has
    a numeric identifier with a registered object, the name can be encoded,
    both digests can be computed and the allocations it needs (four, five
    with a serial number) all succeed; the identifier is then the finished
    one. *)
Theorem cert_id_new_returns_iff
    (d : EVP_MD) (name : X509_NAME) (key : ASN1_BIT_STRING)
    (sn : option ASN1_INTEGER) (m : list bool) (cid : OCSP_CERTID) :
  returned (OCSP_cert_id_new d name key sn) m = Some cid <->
  exists obj der nh kh,
    allocations_succeed (allocations_needed sn) m = true
    /\ EVP_MD_type d <> NID_undef
    /\ OBJ_nid2obj (EVP_MD_type d) = Some obj
    /\ i2d_X509_NAME name = Some der
    /\ md_compute d der = Some nh
    /\ md_compute d (str_octets key) = Some kh
    /\ cid = finished obj nh kh sn.
Proof.
  split.
  - apply cert_id_new_returns.
  - intros (obj & der & nh & kh & HA & Hnid & Hobj & Hder & Hnh & Hkh & ->).
    apply (cert_id_new_succeeds d name key sn m obj der nh kh); assumption.
Qed.

(** X2. Whatever bytes the local buffer [md] holds when the function is
    entered, the result is the same: nothing of the uninitialised buffer
    reaches the identifier. *)
Theorem stack_bytes_do_not_matter
    (md : list byte) (d : EVP_MD) (name : X509_NAME) (key : ASN1_BIT_STRING)
    (sn : option ASN1_INTEGER) (m : list bool) :
  returned (@OCSP_cert_id_new (with_stack_bytes md) d name key sn) m
  = returned (@OCSP_cert_id_new L d name key sn) m.
Proof.
  rewrite (@cert_id_new_outcome L).
  rewrite (@cert_id_new_outcome (with_stack_bytes md)).
  reflexivity.
Qed.

(** X3. The issuer key enters the result through the octets
    [data[0 .. length)] only: two bit strings with the same octets, whatever
    their flags, their type or the bytes past their length, give the same
    result. *)
Theorem key_matters_through_its_octets
    (d : EVP_MD) (name : X509_NAME) (key key' : ASN1_BIT_STRING)
    (sn : option ASN1_INTEGER) (m : list bool) :
  str_octets key = str_octets key' ->
  returned (OCSP_cert_id_new d name key sn) m
  = returned (OCSP_cert_id_new d name key' sn) m.
Proof.
  intros Hoctets. rewrite !cert_id_new_outcome. unfold cert_id_outcome.
  rewrite Hoctets. reflexivity.
Qed.

(** X4. When a subject certificate is given, the issuer certificate is
    consulted for its public key only: issuer certificates whose key octets
    agree give the same result, whatever their names.  In particular the
    issuer's subject name is not compared with the subject's issuer name. *)
Theorem issuer_matters_through_its_key
    (dgst : option EVP_MD) (subject issuer issuer' : X509) (m : list bool) :
  str_octets (X509_get0_pubkey_bitstr issuer) = str_octets (X509_get0_pubkey_bitstr issuer') ->
  returned (OCSP_cert_to_id dgst (Some subject) issuer) m
  = returned (OCSP_cert_to_id dgst (Some subject) issuer') m.
Proof.
  intros Hkey. rewrite !cert_to_id_call. cbn [selected_name selected_serial].
  rewrite !cert_id_new_outcome. unfold cert_id_outcome.
  rewrite Hkey. reflexivity.
Qed.

(** X5. If the subject's issuer field is the issuer certificate's subject
    field and the identifier of the subject is built, then the identifier
    built from the issuer alone is built as well, under the same allocator,
    and has the same hash algorithm and the same two hashes; its serial
    number is the one that was allocated. *)
Theorem issuer_only_identifier_agrees
    (dgst : option EVP_MD) (subject issuer : X509) (m : list bool) (cid : OCSP_CERTID) :
  X509_get_issuer_name subject = X509_get_subject_name issuer ->
  returned (OCSP_cert_to_id dgst (Some subject) issuer) m = Some cid ->
  exists cid',
    returned (OCSP_cert_to_id dgst None issuer) m = Some cid'
    /\ without_serial cid' = without_serial cid
    /\ serialNumber cid' = serialNumber OCSP_CERTID_blank.
Proof.
  intros Hname H. rewrite cert_to_id_call in H. cbn [selected_name selected_serial] in H.
  apply cert_id_new_returns in H.
  destruct H as (obj & der & nh & kh & HA & Hnid & Hobj & Hder & Hnh & Hkh & ->).
  exists (finished obj nh kh None). split; [|split; reflexivity].
  rewrite cert_to_id_call. cbn [selected_name selected_serial].
  rewrite <- Hname.
  apply (cert_id_new_succeeds _ _ _ None m obj der nh kh); try assumption.
  apply allocations_needed_split in HA. apply allocations_needed_split.
  destruct HA as (A1 & A2 & A3 & A4 & _).
  repeat (split; [assumption|]). intros C. contradiction C. reflexivity.
Qed.

(** X6. With a coherent object registry, the hash algorithm of a returned
    identifier carries the numeric identifier of the digest it was built
    with; identifiers built with digests of different numeric identifiers
    therefore differ in their hash algorithm. *)
Theorem algorithm_records_digest_nid
    (d d' : EVP_MD) (name name' : X509_NAME) (key key' : ASN1_BIT_STRING)
    (sn sn' : option ASN1_INTEGER) (m m' : list bool) (cid cid' : OCSP_CERTID) :
  registry_coherent ->
  returned (OCSP_cert_id_new d name key sn) m = Some cid ->
  returned (OCSP_cert_id_new d' name' key' sn') m' = Some cid' ->
  (exists obj, algorithm (hashAlgorithm cid) = Some obj /\ obj_nid obj = EVP_MD_type d)
  /\ (EVP_MD_type d <> EVP_MD_type d' -> hashAlgorithm cid <> hashAlgorithm cid').
Proof.
  intros Hreg H H'.
  apply cert_id_new_returns in H.
  destruct H as (obj & der & nh & kh & _ & _ & Hobj & _ & _ & _ & ->).
  apply cert_id_new_returns in H'.
  destruct H' as (obj' & der' & nh' & kh' & _ & _ & Hobj' & _ & _ & _ & ->).
  apply Hreg in Hobj. apply Hreg in Hobj'.
  split.
  - exists obj. split; [reflexivity | exact Hobj].
  - intros Hdiff Heq. unfold finished in Heq. cbn [hashAlgorithm] in Heq.
    inversion Heq. subst obj'. apply Hdiff. rewrite <- Hobj, <- Hobj'. reflexivity.
Qed.

(** X7. The allocator decides only whether an identifier is returned, never
    which: two runs on the same arguments that both return an identifier
    return the same one. *)
Theorem allocator_decides_failure_only
    (d : EVP_MD) (name : X509_NAME) (key : ASN1_BIT_STRING)
    (sn : option ASN1_INTEGER) (m m' : list bool) (cid cid' : OCSP_CERTID) :
  returned (OCSP_cert_id_new d name key sn) m = Some cid ->
  returned (OCSP_cert_id_new d name key sn) m' = Some cid' ->
  cid = cid'.
Proof.
  intros H H'.
  apply cert_id_new_returns in H.
  destruct H as (obj & der & nh & kh & _ & _ & Hobj & Hder & Hnh & Hkh & ->).
  apply cert_id_new_returns in H'.
  destruct H' as (obj' & der' & nh' & kh' & _ & _ & Hobj' & Hder' & Hnh' & Hkh' & ->).
  rewrite Hobj in Hobj'. inversion Hobj'; subst obj'.
  rewrite Hder in Hder'. inversion Hder'; subst der'.
  rewrite Hnh in Hnh'. inversion Hnh'; subst nh'.
  rewrite Hkh in Hkh'. inversion Hkh'; subst kh'.
  reflexivity.
Qed.

End MoreCertIDProperties.

(** ** Further properties of the header's codes *)

(** X8. Distinct response statuses have distinct codes, and the codes in use
    are exactly 0, 1, 2, 3, 5 and 6. *)
Theorem status_codes_distinguish_statuses :
  (forall s s' : ResponseStatus, status_code s = status_code s' -> s = s')
  /\ (forall c : Z, (exists s, status_code s = c) <-> (0 <= c <= 6 /\ c <> 4)).
Proof.
  split.
  - intros s s' H. destruct s, s'; try reflexivity; discriminate H.
  - intros c. split.
    + intros [s <-]. destruct s; cbv; repeat split; discriminate.
    + intros [Hrange Hgap].
      assert (Hc : c = 0 \/ c = 1 \/ c = 2 \/ c = 3 \/ c = 5 \/ c = 6) by lia.
      destruct Hc as [-> | [-> | [-> | [-> | [-> | ->]]]]].
      * exists Successful. reflexivity.
      * exists MalformedRequest. reflexivity.
      * exists InternalError. reflexivity.
      * exists TryLater. reflexivity.
      * exists SigRequired. reflexivity.
      * exists Unauthorized. reflexivity.
Qed.

(** X9. Distinct certificate statuses have distinct codes, and the codes in
    use are exactly 0, 1 and 2, without a gap. *)
Theorem cert_status_codes_distinguish_statuses :
  (forall s s' : CertStatus, cert_status_code s = cert_status_code s' -> s = s')
  /\ (forall c : Z, (exists s, cert_status_code s = c) <-> 0 <= c <= 2).
Proof.
  split.
  - intros s s' H. destruct s, s'; try reflexivity; discriminate H.
  - intros c. split.
    + intros [s <-]. destruct s; cbv; split; discriminate.
    + intros Hrange.
      assert (Hc : c = 0 \/ c = 1 \/ c = 2) by lia.
      destruct Hc as [-> | [-> | ->]].
      * exists Good. reflexivity.
      * exists Revoked. reflexivity.
      * exists Unknown. reflexivity.
Qed.

(** ** The properties at work on the concrete libcrypto *)

#[local] Existing Instance Toy.crypto.

Lemma toy_digests_have_fixed_length : fixed_length_digests Toy.crypto.
Proof.
  intros d input h. destruct d; simpl; intros H; inversion H; reflexivity.
Qed.

(** A run that stops at the fifth allocation, the copy of the serial number,
    returns nothing although both hashes had been computed. *)
Example failed_serial_copy_returns_null :
  returned (OCSP_cert_to_id (Some Toy.sha256) (Some Toy.leaf1) Toy.ca)
    [true; true; true; true; false] = None.
Proof. reflexivity. Qed.

(** The same run without a subject needs four allocations only. *)
Example issuer_only_needs_four_allocations :
  exists cid,
    returned (OCSP_cert_to_id (Some Toy.sha256) None Toy.ca)
      [true; true; true; true; false] = Some cid
    /\ serialNumber cid = Toy.blank_string 2.
Proof. eexists. split; reflexivity. Qed.

Lemma key_hash_digests_bit_string_octets_witness :
  exists cid,
    returned (OCSP_cert_to_id (Some Toy.sha1) (Some Toy.leaf1) Toy.ca) [] = Some cid
    /\ exists h,
         md_compute (digest_or_sha1 (Some Toy.sha1))
           (str_octets (X509_get0_pubkey_bitstr Toy.ca)) = Some h
         /\ str_octets (issuerKeyHash cid) = h
         /\ str_data (issuerKeyHash cid) = h
         /\ str_length (issuerKeyHash cid) = Z.of_nat (length h).
Proof.
  eexists. split.
  - vm_compute. reflexivity.
  - apply (@key_hash_digests_bit_string_octets Toy.crypto
             (Some Toy.sha1) (Some Toy.leaf1) Toy.ca []).
    vm_compute. reflexivity.
Defined.

Lemma cert_to_id_name_and_serial_witness :
  exists cid,
    returned (OCSP_cert_to_id None (Some Toy.leaf2) Toy.ca) [true; true] = Some cid
    /\ name_hash_of cid (digest_or_sha1 None) (X509_get_issuer_name Toy.leaf2)
    /\ same_string (serialNumber cid) (X509_get0_serialNumber Toy.leaf2).
Proof.
  eexists. split.
  - vm_compute. reflexivity.
  - apply (@cert_to_id_name_and_serial Toy.crypto None (Some Toy.leaf2) Toy.ca [true; true]).
    vm_compute. reflexivity.
Defined.

Lemma cert_id_algorithm_and_hash_lengths_witness :
  fixed_length_digests Toy.crypto
  /\ exists cid,
       returned (OCSP_cert_to_id (Some Toy.sha256) (Some Toy.leaf1) Toy.ca) [] = Some cid
       /\ EVP_MD_type Toy.sha256 <> NID_undef
       /\ (exists obj, OBJ_nid2obj (EVP_MD_type Toy.sha256) = Some obj
                       /\ algorithm (hashAlgorithm cid) = Some obj)
       /\ str_length (issuerNameHash cid) = Z.of_nat (EVP_MD_size Toy.sha256)
       /\ length (str_octets (issuerNameHash cid)) = EVP_MD_size Toy.sha256
       /\ str_length (issuerKeyHash cid) = Z.of_nat (EVP_MD_size Toy.sha256)
       /\ length (str_octets (issuerKeyHash cid)) = EVP_MD_size Toy.sha256.
Proof.
  split; [exact toy_digests_have_fixed_length|].
  eexists. split.
  - vm_compute. reflexivity.
  - apply (@cert_id_algorithm_and_hash_lengths Toy.crypto
             Toy.sha256 (Some Toy.leaf1) Toy.ca []).
    + exact toy_digests_have_fixed_length.
    + vm_compute. reflexivity.
Defined.

Lemma unsupported_digest_fails_all_or_nothing_witness :
  (EVP_MD_type Toy.undefined_md = NID_undef
   /\ returned (OCSP_cert_id_new Toy.undefined_md Toy.ca_name (Toy.pubkey Toy.ca) None) []
      = None)
  /\ (OBJ_nid2obj (EVP_MD_type Toy.unlisted_md) = None
      /\ returned (OCSP_cert_id_new Toy.unlisted_md Toy.ca_name (Toy.pubkey Toy.ca) None) []
         = None).
Proof.
  split; split.
  - reflexivity.
  - apply (proj1 (@unsupported_digest_fails_all_or_nothing Toy.crypto
                    Toy.undefined_md Toy.ca_name (Toy.pubkey Toy.ca) None [])).
    left. reflexivity.
  - reflexivity.
  - apply (proj1 (@unsupported_digest_fails_all_or_nothing Toy.crypto
                    Toy.unlisted_md Toy.ca_name (Toy.pubkey Toy.ca) None [])).
    right. reflexivity.
Defined.

Lemma serial_changes_serial_only_witness :
  X509_get_issuer_name Toy.leaf1 = X509_get_issuer_name Toy.leaf2
  /\ option_map without_serial
       (returned (OCSP_cert_to_id (Some Toy.sha1) (Some Toy.leaf1) Toy.ca) [])
     = option_map without_serial
         (returned (OCSP_cert_to_id (Some Toy.sha1) (Some Toy.leaf2) Toy.ca) []).
Proof.
  split.
  - reflexivity.
  - apply (@serial_changes_serial_only Toy.crypto
             (Some Toy.sha1) Toy.leaf1 Toy.leaf2 Toy.ca []).
    reflexivity.
Defined.

Lemma algorithm_parameter_is_asn1_null_witness :
  exists cid,
    returned (OCSP_cert_id_new Toy.sha1 Toy.ca_name (Toy.pubkey Toy.ca)
                (Some (Toy.integer [x2a]))) [] = Some cid
    /\ exists par, parameter (hashAlgorithm cid) = Some par /\ at_type par = V_ASN1_NULL.
Proof.
  eexists. split.
  - vm_compute. reflexivity.
  - apply (@algorithm_parameter_is_asn1_null Toy.crypto
             Toy.sha1 Toy.ca_name (Toy.pubkey Toy.ca) (Some (Toy.integer [x2a])) []).
    vm_compute. reflexivity.
Defined.

Lemma trailing_bytes_are_rejected_witness :
  d2i_OCSP_RESPONSE_bio ResponseStatus Toy.d2i_status_only Toy.try_later_response
  = inl TryLater
  /\ [x00] <> []
  /\ d2i_OCSP_RESPONSE_bio ResponseStatus Toy.d2i_status_only
       (Toy.try_later_response ++ [x00]) = inr TrailingDataError.
Proof.
  split; [reflexivity|]. split; [discriminate|].
  apply (trailing_bytes_are_rejected ResponseStatus Toy.d2i_status_only
           Toy.try_later_response [x00] TryLater).
  - reflexivity.
  - discriminate.
Defined.

Lemma toy_registry_coherent : @registry_coherent Toy.crypto.
Proof.
  intros nid obj. cbn. unfold Toy.registry.
  destruct (nid =? 64) eqn:E1; [apply Z.eqb_eq in E1; intros H; inversion H; subst; reflexivity|].
  destruct (nid =? 672) eqn:E2; [apply Z.eqb_eq in E2; intros H; inversion H; subst; reflexivity|].
  destruct (nid =? 4) eqn:E3; [apply Z.eqb_eq in E3; intros H; inversion H; subst; reflexivity|].
  discriminate.
Qed.

(** The stack bytes at work: a buffer of zeroes in place of the toy's. *)
Example stack_bytes_do_not_matter_example :
  returned (@OCSP_cert_id_new (@with_stack_bytes Toy.crypto (repeat x00 64))
              Toy.sha256 Toy.ca_name (Toy.pubkey Toy.ca) None) []
  = returned (@OCSP_cert_id_new Toy.crypto
                Toy.sha256 Toy.ca_name (Toy.pubkey Toy.ca) None) [].
Proof. reflexivity. Qed.

Lemma cert_id_new_returns_iff_witness :
  exists cid,
    returned (OCSP_cert_id_new Toy.sha1 Toy.ca_name (Toy.pubkey Toy.ca) None)
      [true; true; true; true; false] = Some cid.
Proof.
  eexists.
  apply (proj2 (@cert_id_new_returns_iff Toy.crypto
                  Toy.sha1 Toy.ca_name (Toy.pubkey Toy.ca) None
                  [true; true; true; true; false] _)).
  eexists. eexists. eexists. eexists.
  split; [reflexivity|]. split; [discriminate|].
  split; [reflexivity|]. split; [reflexivity|].
  split; [reflexivity|]. split; [reflexivity|]. reflexivity.
Defined.

Lemma key_matters_through_its_octets_witness :
  str_octets (Toy.pubkey Toy.ca) = str_octets Samples.padded_key
  /\ returned (OCSP_cert_id_new Toy.sha1 Toy.ca_name (Toy.pubkey Toy.ca) None) []
     = returned (OCSP_cert_id_new Toy.sha1 Toy.ca_name Samples.padded_key None) [].
Proof.
  split; [reflexivity|].
  apply (@key_matters_through_its_octets Toy.crypto
           Toy.sha1 Toy.ca_name (Toy.pubkey Toy.ca) Samples.padded_key None []).
  reflexivity.
Defined.

Lemma issuer_matters_through_its_key_witness :
  str_octets (X509_get0_pubkey_bitstr Toy.ca)
  = str_octets (X509_get0_pubkey_bitstr Samples.renamed_ca)
  /\ returned (OCSP_cert_to_id (Some Toy.sha256) (Some Toy.leaf1) Toy.ca) []
     = returned (OCSP_cert_to_id (Some Toy.sha256) (Some Toy.leaf1) Samples.renamed_ca) [].
Proof.
  split; [reflexivity|].
  apply (@issuer_matters_through_its_key Toy.crypto
           (Some Toy.sha256) Toy.leaf1 Toy.ca Samples.renamed_ca []).
  reflexivity.
Defined.

Lemma issuer_only_identifier_agrees_witness :
  X509_get_issuer_name Toy.leaf1 = X509_get_subject_name Toy.ca
  /\ exists cid,
       returned (OCSP_cert_to_id None (Some Toy.leaf1) Toy.ca) [] = Some cid
       /\ exists cid',
            returned (OCSP_cert_to_id None None Toy.ca) [] = Some cid'
            /\ without_serial cid' = without_serial cid
            /\ serialNumber cid' = serialNumber OCSP_CERTID_blank.
Proof.
  split; [reflexivity|].
  eexists. split.
  - vm_compute. reflexivity.
  - apply (@issuer_only_identifier_agrees Toy.crypto None Toy.leaf1 Toy.ca []).
    + reflexivity.
    + vm_compute. reflexivity.
Defined.

Lemma algorithm_records_digest_nid_witness :
  @registry_coherent Toy.crypto
  /\ exists cid cid',
       returned (OCSP_cert_id_new Toy.sha1 Toy.ca_name (Toy.pubkey Toy.ca) None) [] = Some cid
       /\ returned (OCSP_cert_id_new Toy.sha256 Toy.ca_name (Toy.pubkey Toy.ca) None) []
          = Some cid'
       /\ (exists obj, algorithm (hashAlgorithm cid) = Some obj
                       /\ obj_nid obj = EVP_MD_type Toy.sha1)
       /\ (EVP_MD_type Toy.sha1 <> EVP_MD_type Toy.sha256 ->
           hashAlgorithm cid <> hashAlgorithm cid').
Proof.
  split; [exact toy_registry_coherent|].
  eexists. eexists.
  split; [vm_compute; reflexivity|]. split; [vm_compute; reflexivity|].
  apply (@algorithm_records_digest_nid Toy.crypto
           Toy.sha1 Toy.sha256 Toy.ca_name Toy.ca_name (Toy.pubkey Toy.ca) (Toy.pubkey Toy.ca)
           None None [] []).
  - exact toy_registry_coherent.
  - vm_compute. reflexivity.
  - vm_compute. reflexivity.
Defined.

Lemma allocator_decides_failure_only_witness :
  exists cid cid',
    returned (OCSP_cert_id_new Toy.sha1 Toy.ca_name (Toy.pubkey Toy.ca)
                (Some (Toy.integer [x07]))) [] = Some cid
    /\ returned (OCSP_cert_id_new Toy.sha1 Toy.ca_name (Toy.pubkey Toy.ca)
                   (Some (Toy.integer [x07]))) [true; true; true; true; true; false]
       = Some cid'
    /\ cid = cid'.
Proof.
  eexists. eexists.
  split; [vm_compute; reflexivity|]. split; [vm_compute; reflexivity|].
  apply (@allocator_decides_failure_only Toy.crypto
           Toy.sha1 Toy.ca_name (Toy.pubkey Toy.ca) (Some (Toy.integer [x07]))
           [] [true; true; true; true; true; false]).
  - vm_compute. reflexivity.
  - vm_compute. reflexivity.
Defined.

Lemma status_codes_distinguish_statuses_witness :
  status_code TryLater = status_code TryLater /\ TryLater = TryLater.
Proof.
  split; [reflexivity|].
  apply (proj1 status_codes_distinguish_statuses TryLater TryLater). reflexivity.
Defined.

Lemma cert_status_codes_distinguish_statuses_witness :
  cert_status_code Revoked = cert_status_code Revoked /\ Revoked = Revoked.
Proof.
  split; [reflexivity|].
  apply (proj1 cert_status_codes_distinguish_statuses Revoked Revoked). reflexivity.
Defined.

(** ** A digest whose object has no object identifier *)

(** C5, as first stated, fails.  The MD5 and SHA-1 combination has no
    registered object identifier -- the object the registry holds for its
    numeric identifier 114 carries none -- and yet [OCSP_cert_id_new]
    returns an identifier for it: lines 54-58 test the numeric identifier
    and the pointer to the object, not the object. *)
Lemma object_without_identifier_is_accepted :
  @lacks_object_identifier Md5Sha1.crypto Md5Sha1.md5_sha1
  /\ @returned OCSP_CERTID
       (@OCSP_cert_id_new Md5Sha1.crypto Md5Sha1.md5_sha1 Toy.ca_name (Toy.pubkey Toy.ca)
          (Some (Toy.integer [x10; x01]))) []
     <> None.
Proof.
  split.
  - right. reflexivity.
  - vm_compute. discriminate.
Qed.

(** The identifier returned for it is complete, with an algorithm object of
    numeric identifier 114 and no encoded identifier. *)
Example md5_sha1_identifier :
  option_map (fun cid => (algorithm (hashAlgorithm cid),
                          str_length (issuerNameHash cid),
                          str_length (issuerKeyHash cid),
                          str_octets (serialNumber cid)))
    (@returned OCSP_CERTID
       (@OCSP_cert_id_new Md5Sha1.crypto Md5Sha1.md5_sha1 Toy.ca_name (Toy.pubkey Toy.ca)
          (Some (Toy.integer [x10; x01]))) [])
  = Some (Some {| obj_nid := 114; obj_data := [] |}, 36, 36, [x10; x01]).
Proof. reflexivity. Qed.

(** An unsupported digest and a failing hash computation give the caller
    the same NULL. *)
Example failures_are_not_told_apart :
  returned (OCSP_cert_id_new Toy.unlisted_md Toy.ca_name (Toy.pubkey Toy.ca) None) []
  = returned (OCSP_cert_id_new Toy.broken_md Toy.ca_name (Toy.pubkey Toy.ca) None) [].
Proof. reflexivity. Qed.
